(** * GCP-Pulumi: the VPC module and its entry configuration

    A shallow embedding of [src/modules/vpc.ts] and [src/index.ts].

    The program is a Pulumi configuration: running it declares resources
    with the engine ([new gcp.compute.Network(..)] and the like) and exports
    a summary.  The embedding keeps

    - the argument objects as JavaScript object literals ([Value]),
    - the engine as the ordered log of declarations ([Engine]), a resource
      object being the position of its declaration in that log,
    - the effects as a state monad over that log ([M]),
    - [process.env] as a finite map from names to strings.

    TypeScript's declared types are erased when the program runs; what is
    modelled is the JavaScript that runs.  The provider SDK and the engine
    are not part of the repository: a resource constructor is modelled by
    what the module meets of it, the declaration of one resource, or the
    exception it throws when the name of the resource is empty, which ends
    the construction and leaves what was declared before. *)

From Stdlib Require Import Ascii NArith.
From stdpp Require Import strings gmap list.

Set Warnings "-register-all".

(** ** JavaScript values *)

(** A resource object, identified by the position of its declaration. *)
Definition Resource := nat.

(** The values that occur in the argument objects and in the exported
    summary.  [VOut r p] is the output property [r.p] of a resource object,
    a value only the engine resolves ([this.vpc.id], [subnet.name]). *)
Inductive Value :=
| VUndefined
| VBool (b : bool)
| VStr (s : string)
| VArr (items : list Value)
| VObj (props : list (string * Value))
| VOut (r : Resource) (p : string).

(** [strs l] is the array of the strings of [l] (a [string[]]). *)
Definition strs (l : list string) : Value := VArr (VStr <$> l).

(** A parameter the caller left out is [undefined]. *)
Definition ranges (o : option (list string)) : Value :=
  match o with
  | Some l => strs l
  | None => VUndefined
  end.

(** Property lookup in a list of properties. *)
Fixpoint assoc (k : string) (props : list (string * Value)) : option Value :=
  match props with
  | [] => None
  | (k', v) :: rest => if decide (k' = k) then Some v else assoc k rest
  end.

(** [o.k]: the property [k] of an object, [None] when [o] has none. *)
Definition get (k : string) (v : Value) : option Value :=
  match v with
  | VObj props => assoc k props
  | _ => None
  end.

(** The resource objects a value refers to. *)
Fixpoint refs (v : Value) : list Resource :=
  match v with
  | VOut r _ => [r]
  | VArr items => flat_map refs items
  | VObj props => flat_map (fun kv => match kv with (_, w) => refs w end) props
  | _ => []
  end.

(** ** The engine *)

(** The three resource classes of [gcp.compute] the module instantiates. *)
Inductive Kind := Network | Subnetwork | Firewall.

Global Instance Kind_eq_dec : EqDecision Kind.
Proof. solve_decision. Defined.

(** One declaration: [new gcp.compute.<kind>(<rname>, <args>)]. *)
Record Decl := mkDecl { kind : Kind; rname : string; args : Value }.

(** The declarations made so far, in order. *)
Abbreviation Engine := (list Decl).

(** [d.k] for the argument object of a declaration. *)
Definition prop (k : string) (d : Decl) : option Value := get k (args d).

(** What a resource constructor throws: the SDK refuses a resource whose
    name is empty ("Missing resource name argument"), whatever its class. *)
Inductive Error := MissingResourceName (k : Kind).

(** How an evaluation ends: with a value, or with an exception thrown. *)
Inductive Completion (A : Type) :=
| Normal (a : A)
| Throw (e : Error).

Arguments Normal {A} a.
Arguments Throw {A} e.

(** Computations that declare resources and may throw.  The log is kept
    when an exception is thrown: what was declared stays declared. *)
Definition M (A : Type) : Type := Engine -> Completion A * Engine.

Global Instance M_ret : MRet M := fun A a s => (Normal a, s).
Global Instance M_bind : MBind M :=
  fun A B f m s =>
    match m s with
    | (Normal a, s') => f a s'
    | (Throw e, s') => (Throw e, s')
    end.

(** [new gcp.compute.<k>(name, a)]: with an empty name the constructor
    throws and declares nothing; otherwise the declaration is appended to
    the log and the new resource object is returned. *)
Definition new (k : Kind) (name : string) (a : Value) : M Resource :=
  fun s =>
    match name with
    | EmptyString => (Throw (MissingResourceName k), s)
    | _ => (Normal (length s), s ++ [mkDecl k name a])
    end.

(** [l.forEach(f)], the state of the enclosing object threaded through; an
    exception thrown by [f] ends the loop. *)
Fixpoint forEach {A T : Type} (l : list A) (f : T -> A -> M T) (this : T) : M T :=
  match l with
  | [] => mret this
  | x :: rest => this' ← f this x; forEach rest f this'
  end.

(** What a computation started in [s] has added to the log. *)
Definition created {A : Type} (m : M A) (s : Engine) : list Decl :=
  drop (length s) (m s).2.

(** The declarations of one class. *)
Definition of_kind (k : Kind) (ds : list Decl) : list Decl :=
  filter (fun d => kind d = k) ds.

(** ** [src/modules/vpc.ts] *)

Module VPC.

(** An element of [subnetsConfig]. *)
Record SubnetConfig := mkSubnetConfig { cidrRange : string; name : string }.

(** The fields of the class: [vpc] and [subnets]. *)
Record t := mk { vpc : Resource; subnets : list Resource }.

(** [this.subnets.push(subnet)] *)
Definition push (this : t) (subnet : Resource) : t :=
  mk (vpc this) (subnets this ++ [subnet]).

(** [createFirewallRules(sourceRanges, sshSourceRanges)] *)
Definition createFirewallRules (this : t)
    (sourceRanges : list string) (sshSourceRanges : option (list string)) : M unit :=
  _ ← new Firewall "allow-internal" (VObj [
         ("network", VOut (vpc this) "id");
         ("allows", VArr [
            VObj [("protocol", VStr "tcp"); ("ports", VArr [VStr "0-65535"])];
            VObj [("protocol", VStr "udp"); ("ports", VArr [VStr "0-65535"])];
            VObj [("protocol", VStr "icmp")]]);
         ("sourceRanges", strs sourceRanges);
         ("targetTags", VArr [VStr "internal"]);
         ("direction", VStr "INGRESS");
         ("logConfig", VObj [("metadata", VStr "INCLUDE_ALL_METADATA")])]);
  _ ← new Firewall "allow-ssh" (VObj [
         ("network", VOut (vpc this) "id");
         ("allows", VArr [
            VObj [("protocol", VStr "tcp"); ("ports", VArr [VStr "22"])]]);
         ("sourceRanges", ranges sshSourceRanges);
         ("direction", VStr "INGRESS");
         ("logConfig", VObj [("metadata", VStr "INCLUDE_ALL_METADATA")])]);
  mret tt.

(** The constructor.  The fifth formal is an [option]: JavaScript binds a
    formal that has no argument to [undefined], and the call of
    [src/index.ts] has four arguments. *)
Definition constructor (name : string) (region : string)
    (subnetsConfig : list SubnetConfig)
    (sourceRanges : list string) (sshSourceRanges : option (list string)) : M t :=
  network ← new Network name (VObj [("autoCreateSubnetworks", VBool false)]);
  this ← forEach subnetsConfig (fun this subnetConfig =>
            subnet ← new Subnetwork (VPC.name subnetConfig) (VObj [
                        ("ipCidrRange", VStr (cidrRange subnetConfig));
                        ("region", VStr region);
                        ("network", VOut (vpc this) "id");
                        ("privateIpGoogleAccess", VBool true)]);
            mret (push this subnet))
          (mk network []);
  _ ← createFirewallRules this sourceRanges sshSourceRanges;
  mret this.

(** [getVPCDetails()] *)
Definition getVPCDetails (this : t) : M Value :=
  let subnetDetails :=
    (fun subnet => VObj [("subnetName", VOut subnet "name");
                         ("subnetId", VOut subnet "id")]) <$> subnets this in
  mret (VObj [("vpcName", VOut (vpc this) "name");
              ("vpcId", VOut (vpc this) "id");
              ("subnets", VArr subnetDetails)]).

End VPC.

(** ** [src/index.ts] *)

(** [process.env]. *)
Abbreviation Env := (gmap string string).

(** [process.env.X || d]: [d] when the variable is unset, and also when it
    is the empty string, which is falsy. *)
Definition or_default (v : option string) (d : string) : string :=
  match v with
  | Some EmptyString => d
  | Some s => s
  | None => d
  end.

Definition subnetsConfigIndiaVPC (env : Env) : list VPC.SubnetConfig :=
  [ VPC.mkSubnetConfig (or_default (env !! "VPC_CIDR_RANGE_1") "10.0.0.0/16") "vpc-subnet-1";
    VPC.mkSubnetConfig (or_default (env !! "VPC_CIDR_RANGE_2") "10.1.0.0/16") "vpc-subnet-2" ].

Definition sourceRangesIndiaVPC (env : Env) : list string :=
  [ or_default (env !! "VPC_SOURCE_RANGE") "10.0.0.0/8" ].

(** [new VPC("india-vpc", .., subnetsConfigIndiaVPC, sourceRangesIndiaVPC)]:
    four arguments, none for [sshSourceRanges]. *)
Definition indiaVPC (env : Env) : M VPC.t :=
  VPC.constructor "india-vpc" (or_default (env !! "GCP_REGION") "us-central1")
    (subnetsConfigIndiaVPC env) (sourceRangesIndiaVPC env) None.

(** The module body: the construction, then the exported
    [indiaVpcDetails]. *)
Definition program (env : Env) : M Value :=
  indiaVPC ← indiaVPC env;
  VPC.getVPCDetails indiaVPC.

(** The declarations of a deployment: the program run on an empty log. *)
Definition declared (env : Env) : list Decl := created (program env) [].

(** The exported value of a deployment. *)
Definition indiaVpcDetails (env : Env) : Completion Value := (program env []).1.

(** ** The port notation

    The [ports] of an allow entry are strings in the provider's notation: a
    decimal port (["22"]) or a range of ports (["0-65535"]).  An entry
    without [ports] allows every port of its protocol. *)

Definition digit (c : ascii) : option N :=
  let n := N_of_ascii c in
  if ((48 <=? n) && (n <=? 57))%N then Some (n - 48)%N else None.

Fixpoint decimal_from (acc : N) (s : string) : option N :=
  match s with
  | EmptyString => Some acc
  | String c rest => d ← digit c; decimal_from (acc * 10 + d)%N rest
  end.

Definition decimal (s : string) : option N :=
  match s with
  | EmptyString => None
  | _ => decimal_from 0%N s
  end.

(** [split_dash s]: the part before the first ["-"], and the part after it
    when there is one. *)
Fixpoint split_dash (s : string) : string * option string :=
  match s with
  | EmptyString => (EmptyString, None)
  | String c rest =>
      if decide (c = "-"%char) then (EmptyString, Some rest)
      else let '(a, b) := split_dash rest in (String c a, b)
  end.

(** The first and the last port a string of [ports] denotes. *)
Definition port_range (s : string) : option (N * N) :=
  let '(a, b) := split_dash s in
  lo ← decimal a;
  match b with
  | None => Some (lo, lo)
  | Some b => hi ← decimal b; Some (lo, hi)
  end.

(** The ranges an allow entry names, [None] when it has no [ports]. *)
Definition ports_of (allow : Value) : option (list (option (N * N))) :=
  match get "ports" allow with
  | None => None
  | Some (VArr items) =>
      Some ((fun v => match v with VStr s => port_range s | _ => None end) <$> items)
  | Some _ => Some []
  end.

(** Whether an allow entry covers port [p]. *)
Definition allows_port (allow : Value) (p : N) : bool :=
  match ports_of allow with
  | None => true
  | Some rs =>
      existsb (fun r => match r with
                        | Some (lo, hi) => ((lo <=? p) && (p <=? hi))%N
                        | None => false
                        end) rs
  end.

(** ** Reading the log *)

(** The firewall rules declared under the name [n]. *)
Definition rule (n : string) (ds : list Decl) : list Decl :=
  filter (fun d => rname d = n) (of_kind Firewall ds).

(** [setting env x d actual]: [actual] is what [process.env.x || d] is, the
    value of [x] when [x] is set to a string that is not empty and [d]
    otherwise. *)
Definition setting (env : Env) (x d actual : string) : Prop :=
  (env !! x = None ∨ env !! x = Some EmptyString → actual = d) ∧
  (∀ v, env !! x = Some v → v ≠ EmptyString → actual = v).

(** [redact ks v]: the object [v] with the properties named in [ks] blanked. *)
Definition redact (ks : list string) (v : Value) : Value :=
  match v with
  | VObj props =>
      VObj ((fun kv : string * Value =>
               if decide (kv.1 ∈ ks) then (kv.1, VUndefined) else kv) <$> props)
  | _ => v
  end.

(** The properties of a declaration that the entry configuration fills from
    the environment: the CIDR range and the region of a Subnetwork, the
    source ranges of the rule "allow-internal". *)
Definition env_props (d : Decl) : list string :=
  match kind d with
  | Network => []
  | Subnetwork => ["ipCidrRange"; "region"]
  | Firewall => if decide (rname d = "allow-internal") then ["sourceRanges"] else []
  end.

Definition without_env (d : Decl) : Decl :=
  mkDecl (kind d) (rname d) (redact (env_props d) (args d)).

(** ** The declarations of a construction, in closed form

    The lemmas below compute the log a construction leaves; these are the
    entries it is compared with. *)

Definition network_decl (name : string) : Decl :=
  mkDecl Network name (VObj [("autoCreateSubnetworks", VBool false)]).

Definition subnet_decl (region : string) (network : Resource)
    (c : VPC.SubnetConfig) : Decl :=
  mkDecl Subnetwork (VPC.name c) (VObj [
    ("ipCidrRange", VStr (VPC.cidrRange c));
    ("region", VStr region);
    ("network", VOut network "id");
    ("privateIpGoogleAccess", VBool true)]).

Definition internal_decl (network : Resource) (sourceRanges : Value) : Decl :=
  mkDecl Firewall "allow-internal" (VObj [
    ("network", VOut network "id");
    ("allows", VArr [
       VObj [("protocol", VStr "tcp"); ("ports", VArr [VStr "0-65535"])];
       VObj [("protocol", VStr "udp"); ("ports", VArr [VStr "0-65535"])];
       VObj [("protocol", VStr "icmp")]]);
    ("sourceRanges", sourceRanges);
    ("targetTags", VArr [VStr "internal"]);
    ("direction", VStr "INGRESS");
    ("logConfig", VObj [("metadata", VStr "INCLUDE_ALL_METADATA")])]).

Definition ssh_decl (network : Resource) (sourceRanges : Value) : Decl :=
  mkDecl Firewall "allow-ssh" (VObj [
    ("network", VOut network "id");
    ("allows", VArr [
       VObj [("protocol", VStr "tcp"); ("ports", VArr [VStr "22"])]]);
    ("sourceRanges", sourceRanges);
    ("direction", VStr "INGRESS");
    ("logConfig", VObj [("metadata", VStr "INCLUDE_ALL_METADATA")])]).

(** The declarations of a construction that meets no exception: the
    Network, the Subnetworks in the order of the entries, the two rules. *)
Definition declarations (name region : string) (subnetsConfig : list VPC.SubnetConfig)
    (sourceRanges : list string) (sshSourceRanges : option (list string))
    (network : Resource) : list Decl :=
  network_decl name
    :: (subnet_decl region network <$> subnetsConfig)
    ++ [internal_decl network (strs sourceRanges);
        ssh_decl network (ranges sshSourceRanges)].

(** The names the provider accepts: the name of the VPC and the name of
    every subnet entry are not empty. *)
Definition named (name : string) (subnetsConfig : list VPC.SubnetConfig) : Prop :=
  name ≠ EmptyString ∧ Forall (λ c, VPC.name c ≠ EmptyString) subnetsConfig.

Global Instance named_dec name subnetsConfig : Decision (named name subnetsConfig).
Proof. unfold named. apply _. Defined.

(** The arguments of the scenario used as an instance below: two subnets,
    one general range, one SSH range. *)
Definition scenario_subnets : list VPC.SubnetConfig :=
  [ VPC.mkSubnetConfig "10.0.0.0/16" "vpc-subnet-1";
    VPC.mkSubnetConfig "10.1.0.0/16" "vpc-subnet-2" ].

Definition scenario : M VPC.t :=
  VPC.constructor "india-vpc" "us-central1" scenario_subnets
    ["10.0.0.0/8"] (Some ["203.0.113.5/32"]).

(** ** Reading several constructions

    What the properties of successive constructions and of the settings are
    stated with. *)

(** A log is in dependency order when every declaration refers to
    resources declared before it only. *)
Definition dependency_ordered (s : Engine) : Prop :=
  ∀ i d, s !! i = Some d → Forall (λ r, r < i) (refs (args d)).

(** What the engine tells resources apart by: the class and the name. *)
Definition key (d : Decl) : Kind * string := (kind d, rname d).

(** The resource objects a [VPC] object holds. *)
Definition held (this : VPC.t) : list Resource := VPC.vpc this :: VPC.subnets this.

(** The four settings of [src/index.ts], each [process.env.X || default]:
    the region, the two CIDR ranges and the source range. *)
Definition settings (env : Env) : string * string * string * string :=
  (or_default (env !! "GCP_REGION") "us-central1",
   or_default (env !! "VPC_CIDR_RANGE_1") "10.0.0.0/16",
   or_default (env !! "VPC_CIDR_RANGE_2") "10.1.0.0/16",
   or_default (env !! "VPC_SOURCE_RANGE") "10.0.0.0/8").

(** * Properties *)

(** ** The port notation on the literals of the module *)

Example port_range_all : port_range "0-65535" = Some (0%N, 65535%N).
Proof. reflexivity. Qed.

Example port_range_ssh : port_range "22" = Some (22%N, 22%N).
Proof. reflexivity. Qed.

Example port_range_bad : port_range "ssh" = None.
Proof. reflexivity. Qed.

(** ** Constructions on concrete arguments *)

(** Two subnets, one general range and one SSH range, on an empty log. *)
Example construction_scenario :
  scenario []
  = (Normal (VPC.mk 0 [1; 2]),
     [ mkDecl Network "india-vpc" (VObj [("autoCreateSubnetworks", VBool false)]);
       mkDecl Subnetwork "vpc-subnet-1" (VObj [
         ("ipCidrRange", VStr "10.0.0.0/16"); ("region", VStr "us-central1");
         ("network", VOut 0 "id"); ("privateIpGoogleAccess", VBool true)]);
       mkDecl Subnetwork "vpc-subnet-2" (VObj [
         ("ipCidrRange", VStr "10.1.0.0/16"); ("region", VStr "us-central1");
         ("network", VOut 0 "id"); ("privateIpGoogleAccess", VBool true)]);
       internal_decl 0 (VArr [VStr "10.0.0.0/8"]);
       ssh_decl 0 (VArr [VStr "203.0.113.5/32"]) ]).
Proof. reflexivity. Qed.

(** No entry and a string that is no CIDR range are taken as they come. *)
Example construction_unchecked :
  of_kind Subnetwork (created (VPC.constructor "n" "r" [] [] None) []) = [] ∧
  prop "ipCidrRange" <$> of_kind Subnetwork
    (created (VPC.constructor "n" "r" [VPC.mkSubnetConfig "not a range" "s"] [] None) [])
  = [Some (VStr "not a range")].
Proof. by split. Qed.

(** An empty name ends the construction where it is met: nothing is
    declared for an empty VPC name, and the Network and the Subnetworks
    before it for an empty subnet name. *)
Example construction_refused :
  VPC.constructor "" "r" scenario_subnets [] None []
  = (Throw (MissingResourceName Network), []) ∧
  VPC.constructor "n" "r"
    [VPC.mkSubnetConfig "c1" "s1"; VPC.mkSubnetConfig "c2" ""; VPC.mkSubnetConfig "c3" "s3"]
    [] None []
  = (Throw (MissingResourceName Subnetwork),
     [network_decl "n"; subnet_decl "r" 0 (VPC.mkSubnetConfig "c1" "s1")]).
Proof. by split. Qed.

(** The same arguments after an earlier construction: the second Network is
    resource 5, and its subnets and rules refer to it. *)
Example construction_twice :
  let first := VPC.constructor "a" "r" [VPC.mkSubnetConfig "c" "s1"; VPC.mkSubnetConfig "d" "s2"] [] None in
  let second := VPC.constructor "b" "r" [VPC.mkSubnetConfig "c" "s3"] [] None in
  (second (first []).2).1 = Normal (VPC.mk 5 [6]) ∧
  prop "network" <$> created second (first []).2
  = [None; Some (VOut 5 "id"); Some (VOut 5 "id"); Some (VOut 5 "id")].
Proof. by split. Qed.

Lemma scenario_named : named "india-vpc" scenario_subnets.
Proof. split; [done|]. by repeat constructor. Qed.

(** ** What a construction leaves in the log *)

Lemma new_named (k : Kind) (name : string) (a : Value) (s : Engine) :
  name ≠ EmptyString →
  new k name a s = (Normal (length s), s ++ [mkDecl k name a]).
Proof. by destruct name. Qed.

Section Construction.

Variables (name region : string) (subnetsConfig : list VPC.SubnetConfig).
Variables (sourceRanges : list string) (sshSourceRanges : option (list string)).

(** The subnet pass over entries with names: one declaration per entry, in
    the order of the entries, each resource object pushed on
    [this.subnets]. *)
Lemma forEach_subnets (cfg : list VPC.SubnetConfig) (this : VPC.t) (s : Engine) :
  Forall (λ c, VPC.name c ≠ EmptyString) cfg →
  forEach cfg (fun this subnetConfig =>
      subnet ← new Subnetwork (VPC.name subnetConfig) (VObj [
                  ("ipCidrRange", VStr (VPC.cidrRange subnetConfig));
                  ("region", VStr region);
                  ("network", VOut (VPC.vpc this) "id");
                  ("privateIpGoogleAccess", VBool true)]);
      mret (VPC.push this subnet)) this s
  = (Normal (VPC.mk (VPC.vpc this) (VPC.subnets this ++ seq (length s) (length cfg))),
     s ++ (subnet_decl region (VPC.vpc this) <$> cfg)).
Proof.
  intros Hcfg. revert this s.
  induction Hcfg as [|c cfg Hc _ IH]; intros this s.
  - cbn. destruct this. by rewrite !app_nil_r.
  - cbn [forEach]. unfold mbind at 1, M_bind.
    unfold mbind at 1, M_bind. rewrite new_named by done.
    unfold mret, M_ret. rewrite IH. cbn. rewrite length_app, <-!app_assoc. cbn.
    by rewrite Nat.add_1_r.
Qed.

(** The subnet pass over entries one of which has no name: the exception of
    the first such entry ends the pass, and the entries before it are
    declared. *)
Lemma forEach_subnets_throw (cfg : list VPC.SubnetConfig) (this : VPC.t) (s : Engine) :
  ¬ Forall (λ c, VPC.name c ≠ EmptyString) cfg →
  ∃ ds,
    forEach cfg (fun this subnetConfig =>
        subnet ← new Subnetwork (VPC.name subnetConfig) (VObj [
                    ("ipCidrRange", VStr (VPC.cidrRange subnetConfig));
                    ("region", VStr region);
                    ("network", VOut (VPC.vpc this) "id");
                    ("privateIpGoogleAccess", VBool true)]);
        mret (VPC.push this subnet)) this s
    = (Throw (MissingResourceName Subnetwork), s ++ ds) ∧
    ds `prefix_of` (subnet_decl region (VPC.vpc this) <$> cfg) ∧
    length ds < length cfg.
Proof.
  revert this s. induction cfg as [|c cfg IH]; intros this s Hcfg.
  { by destruct Hcfg. }
  cbn [forEach]. unfold mbind at 1, M_bind. unfold mbind at 1, M_bind.
  destruct (decide (VPC.name c = EmptyString)) as [Hc|Hc].
  - exists []. rewrite Hc, app_nil_r. split_and!; [done|apply prefix_nil|cbn; lia].
  - rewrite new_named by done.
    destruct (IH (VPC.push this (length s))
                 (s ++ [subnet_decl region (VPC.vpc this) c])) as (ds & Hrun & Hpre & Hlen).
    { intros H. apply Hcfg. by constructor. }
    exists (subnet_decl region (VPC.vpc this) c :: ds). split_and!.
    + replace (s ++ subnet_decl region (VPC.vpc this) c :: ds)
        with ((s ++ [subnet_decl region (VPC.vpc this) c]) ++ ds)
        by (by rewrite <-app_assoc).
      exact Hrun.
    + rewrite fmap_cons. by apply prefix_cons.
    + cbn. lia.
Qed.

(** The two firewall rules, declared after everything else; their names
    are not empty. *)
Lemma createFirewallRules_run (this : VPC.t) (s : Engine) :
  VPC.createFirewallRules this sourceRanges sshSourceRanges s
  = (Normal tt, s ++ [internal_decl (VPC.vpc this) (strs sourceRanges);
                      ssh_decl (VPC.vpc this) (ranges sshSourceRanges)]).
Proof.
  unfold VPC.createFirewallRules, mbind, M_bind, new, mret, M_ret.
  by rewrite <-app_assoc.
Qed.

(** The whole constructor when the provider accepts the names: the object
    it returns and the log it leaves. *)
Lemma constructor_run (s : Engine) :
  named name subnetsConfig →
  VPC.constructor name region subnetsConfig sourceRanges sshSourceRanges s
  = (Normal (VPC.mk (length s) (seq (S (length s)) (length subnetsConfig))),
     s ++ declarations name region subnetsConfig sourceRanges sshSourceRanges (length s)).
Proof.
  intros [Hname Hcfg]. unfold VPC.constructor, declarations.
  unfold mbind at 1, M_bind. rewrite new_named by done.
  unfold mbind at 1, M_bind. rewrite forEach_subnets by done.
  unfold mbind, M_bind. rewrite createFirewallRules_run.
  cbn. rewrite length_app, <-!app_assoc. cbn.
  by rewrite Nat.add_1_r.
Qed.

Lemma constructor_created (s : Engine) :
  named name subnetsConfig →
  created (VPC.constructor name region subnetsConfig sourceRanges sshSourceRanges) s
  = declarations name region subnetsConfig sourceRanges sshSourceRanges (length s).
Proof. intros Hn. unfold created. rewrite constructor_run by done. apply drop_app_length. Qed.

(** The whole constructor when the provider refuses a name: it throws the
    provider's exception, and what it has declared is the Network and the
    Subnetworks before the refused one, or nothing, and no rule. *)
Lemma constructor_throws (s : Engine) :
  ¬ named name subnetsConfig →
  ∃ k ds,
    VPC.constructor name region subnetsConfig sourceRanges sshSourceRanges s
    = (Throw (MissingResourceName k), s ++ ds) ∧
    ds `prefix_of` network_decl name :: (subnet_decl region (length s) <$> subnetsConfig) ∧
    length ds ≤ length subnetsConfig.
Proof.
  intros Hn. unfold VPC.constructor.
  destruct (decide (name = EmptyString)) as [->|Hname].
  { exists Network, []. rewrite app_nil_r.
    split_and!; [done|apply prefix_nil|cbn; lia]. }
  assert (¬ Forall (λ c, VPC.name c ≠ EmptyString) subnetsConfig) as Hcfg.
  { intros H. by apply Hn. }
  unfold mbind at 1. unfold M_bind at 1. rewrite new_named by done.
  unfold mbind at 1. unfold M_bind at 1.
  destruct (forEach_subnets_throw subnetsConfig (VPC.mk (length s) [])
              (s ++ [network_decl name]) Hcfg) as (ds & Hrun & Hpre & Hlen).
  unfold network_decl at 1 in Hrun. rewrite Hrun.
  exists Subnetwork, (network_decl name :: ds). split_and!.
  - by rewrite <-app_assoc.
  - by apply prefix_cons.
  - cbn. lia.
Qed.

(** In either case the log grows by a prefix of the declarations. *)
Lemma constructor_log (s : Engine) :
  ∃ ds,
    (VPC.constructor name region subnetsConfig sourceRanges sshSourceRanges s).2 = s ++ ds ∧
    ds `prefix_of`
      declarations name region subnetsConfig sourceRanges sshSourceRanges (length s).
Proof.
  destruct (decide (named name subnetsConfig)) as [Hn|Hn].
  - eexists. by rewrite constructor_run.
  - destruct (constructor_throws s Hn) as (k & ds & -> & Hpre & _).
    exists ds. split; [done|]. unfold declarations.
    etrans; [exact Hpre|]. apply prefix_cons, prefix_app_r. done.
Qed.

End Construction.

(** The declarations of one class among the subnet declarations. *)
Lemma of_kind_subnets region network cfg :
  of_kind Subnetwork (subnet_decl region network <$> cfg)
  = subnet_decl region network <$> cfg.
Proof.
  unfold of_kind. induction cfg as [|c cfg IH]; [done|].
  rewrite fmap_cons, filter_cons_True by done. by rewrite IH.
Qed.

Lemma of_kind_not_subnets k region network cfg :
  k ≠ Subnetwork → of_kind k (subnet_decl region network <$> cfg) = [].
Proof.
  intros Hk. unfold of_kind. induction cfg as [|c cfg IH]; [done|].
  rewrite fmap_cons, filter_cons_False; [done|]. cbn. congruence.
Qed.

Lemma of_kind_cons k d ds :
  of_kind k (d :: ds) = if decide (kind d = k) then d :: of_kind k ds else of_kind k ds.
Proof. unfold of_kind. by rewrite filter_cons. Qed.

Lemma of_kind_app k ds1 ds2 :
  of_kind k (ds1 ++ ds2) = of_kind k ds1 ++ of_kind k ds2.
Proof. apply filter_app. Qed.

(** The declarations of a construction, class by class. *)
Lemma of_kind_declarations name region cfg sourceRanges sshSourceRanges network :
  let ds := declarations name region cfg sourceRanges sshSourceRanges network in
  of_kind Network ds = [network_decl name] ∧
  of_kind Subnetwork ds = subnet_decl region network <$> cfg ∧
  of_kind Firewall ds = [internal_decl network (strs sourceRanges);
                         ssh_decl network (ranges sshSourceRanges)].
Proof.
  cbv zeta. unfold declarations.
  rewrite !of_kind_cons, !of_kind_app, of_kind_subnets, !of_kind_not_subnets by done.
  rewrite !of_kind_cons. cbn [kind network_decl internal_decl ssh_decl].
  repeat (case_decide; try congruence). split_and!; try done. apply app_nil_r.
Qed.

(** Source ranges refer to no resource. *)
Lemma refs_strs (l : list string) : refs (strs l) = [].
Proof. cbn. induction l as [|x l IH]; [done|]. by cbn. Qed.

Lemma refs_ranges (o : option (list string)) : refs (ranges o) = [].
Proof. destruct o; [apply refs_strs|done]. Qed.

Lemma refs_firewalls (network : Resource) (l : list string) (o : option (list string)) :
  refs (args (internal_decl network (strs l))) = [network] ∧
  refs (args (ssh_decl network (ranges o))) = [network].
Proof.
  split.
  - change (refs (args (internal_decl network (strs l))))
      with (network :: refs (strs l) ++ []).
    by rewrite refs_strs.
  - change (refs (args (ssh_decl network (ranges o))))
      with (network :: refs (ranges o) ++ []).
    by rewrite refs_ranges.
Qed.

(** Everything a construction declares after its Network refers to that
    Network and to nothing else. *)
Lemma refs_after_network region (n : Resource) cfg
    (sourceRanges : list string) (sshSourceRanges : option (list string)) :
  Forall (λ d, refs (args d) = [n])
    ((subnet_decl region n <$> cfg)
     ++ [internal_decl n (strs sourceRanges); ssh_decl n (ranges sshSourceRanges)]).
Proof.
  apply Forall_app. split.
  - apply Forall_fmap, Forall_forall. by intros c _.
  - destruct (refs_firewalls n sourceRanges sshSourceRanges) as [Hi Hs].
    by repeat constructor.
Qed.

(** ** The resources of a construction *)

(** C1, as the code has it.  When the name of the VPC and the names of the
    subnet entries are not empty, a construction returns its object and
    declares exactly one Network, which is the resource [this.vpc] and is
    new, and exactly as many Subnetworks as the list has entries; the
    [network] of every Subnetwork and of both Firewalls is the [id] of that
    Network, and no declaration refers to any other resource. *)
Theorem C1_one_network_referenced_by_all
    (name region : string) (subnetsConfig : list VPC.SubnetConfig)
    (sourceRanges : list string) (sshSourceRanges : option (list string))
    (s : Engine) :
  named name subnetsConfig →
  let run := VPC.constructor name region subnetsConfig sourceRanges sshSourceRanges in
  let ds := created run s in
  ∃ this,
    run s = (Normal this, s ++ ds) ∧
    s !! VPC.vpc this = None ∧
    (∃ d, of_kind Network ds = [d] ∧ (s ++ ds) !! VPC.vpc this = Some d) ∧
    length (of_kind Subnetwork ds) = length subnetsConfig ∧
    length (of_kind Firewall ds) = 2 ∧
    Forall (λ d, prop "network" d = Some (VOut (VPC.vpc this) "id"))
      (of_kind Subnetwork ds ++ of_kind Firewall ds) ∧
    Forall (λ d, Forall (λ r, r = VPC.vpc this) (refs (args d))) ds.
Proof.
  intros Hn. cbv zeta. rewrite constructor_created, constructor_run by done.
  destruct (of_kind_declarations name region subnetsConfig sourceRanges
              sshSourceRanges (length s)) as (-> & -> & ->).
  eexists. split; [reflexivity|]. cbn [VPC.vpc]. split_and!.
  - by apply lookup_ge_None_2.
  - exists (network_decl name). split; [done|].
    unfold declarations. by rewrite list_lookup_middle.
  - by rewrite length_fmap.
  - done.
  - apply Forall_app. split.
    + apply Forall_fmap, Forall_forall. by intros c _.
    + by repeat constructor.
  - unfold declarations. constructor; [by constructor|].
    eapply Forall_impl; [apply refs_after_network|].
    intros d ->. by repeat constructor.
Qed.

Lemma C1_one_network_referenced_by_all_witness :
  named "india-vpc" scenario_subnets ∧
  length (of_kind Network (created scenario [])) = 1 ∧
  length (of_kind Subnetwork (created scenario [])) = length scenario_subnets ∧
  length (of_kind Firewall (created scenario [])) = 2.
Proof.
  split; [exact scenario_named|].
  destruct (C1_one_network_referenced_by_all "india-vpc" "us-central1" scenario_subnets
              ["10.0.0.0/8"] (Some ["203.0.113.5/32"]) [] scenario_named)
    as (this & _ & _ & (d & Hd & _) & Hsub & Hfw & _).
  unfold scenario. split_and!; [by rewrite Hd|exact Hsub|exact Hfw].
Defined.

(** C1, as it is worded, fails where a subnet entry has an empty name: the
    construction throws at that entry, and of the one Subnetwork and the
    two Firewalls the wording counts, none is declared. *)
Lemma C1_empty_subnet_name_stops_construction :
  let subnetsConfig := [VPC.mkSubnetConfig "10.0.0.0/16" ""] in
  let run := VPC.constructor "india-vpc" "us-central1" subnetsConfig ["10.0.0.0/8"] None in
  run [] = (Throw (MissingResourceName Subnetwork), [network_decl "india-vpc"]) ∧
  length subnetsConfig = 1 ∧
  length (of_kind Subnetwork (created run [])) = 0 ∧
  length (of_kind Firewall (created run [])) = 0.
Proof. cbv zeta. by split_and!. Qed.

(** C2, as the code has it.  When the name of the VPC and the names of the
    subnet entries are not empty, and also with no subnet entry and with
    the SSH ranges left out, a construction declares exactly two Firewalls,
    named "allow-internal" and "allow-ssh", in this order. *)
Theorem C2_two_firewall_rules
    (name region : string) (subnetsConfig : list VPC.SubnetConfig)
    (sourceRanges : list string) (sshSourceRanges : option (list string))
    (s : Engine) :
  named name subnetsConfig →
  rname <$> of_kind Firewall
    (created (VPC.constructor name region subnetsConfig sourceRanges sshSourceRanges) s)
  = ["allow-internal"; "allow-ssh"].
Proof.
  intros Hn. rewrite constructor_created by done.
  by destruct (of_kind_declarations name region subnetsConfig sourceRanges
                 sshSourceRanges (length s)) as (_ & _ & ->).
Qed.

Lemma C2_two_firewall_rules_witness :
  named "india-vpc" [] ∧
  rname <$> of_kind Firewall
    (created (VPC.constructor "india-vpc" "us-central1" [] ["10.0.0.0/8"] None) [])
  = ["allow-internal"; "allow-ssh"].
Proof.
  assert (named "india-vpc" []) as Hn by (split; [done|constructor]).
  split; [exact Hn|].
  exact (C2_two_firewall_rules "india-vpc" "us-central1" [] ["10.0.0.0/8"] None [] Hn).
Defined.

(** C2, as it is worded, fails for an empty name: the construction throws
    at the Network and declares no Firewall. *)
Lemma C2_empty_name_declares_no_rule :
  let run := VPC.constructor "" "us-central1" scenario_subnets ["10.0.0.0/8"]
               (Some ["203.0.113.5/32"]) in
  run [] = (Throw (MissingResourceName Network), []) ∧
  rname <$> of_kind Firewall (created run []) = [].
Proof. cbv zeta. by split. Qed.

(** The two rules by name. *)
Lemma rules_created
    (name region : string) (subnetsConfig : list VPC.SubnetConfig)
    (sourceRanges : list string) (sshSourceRanges : option (list string))
    (s : Engine) :
  named name subnetsConfig →
  let ds := created (VPC.constructor name region subnetsConfig sourceRanges sshSourceRanges) s in
  rule "allow-internal" ds = [internal_decl (length s) (strs sourceRanges)] ∧
  rule "allow-ssh" ds = [ssh_decl (length s) (ranges sshSourceRanges)].
Proof.
  intros Hn. cbv zeta. unfold rule. rewrite constructor_created by done.
  destruct (of_kind_declarations name region subnetsConfig sourceRanges
              sshSourceRanges (length s)) as (_ & _ & ->).
  rewrite !filter_cons, filter_nil. cbn [rname internal_decl ssh_decl].
  by repeat case_decide.
Qed.

Lemma strs_inj (l k : list string) : strs l = strs k → l = k.
Proof.
  unfold strs. intros [= H]. revert k H.
  induction l as [|x l IH]; intros [|y k] H; try done.
  rewrite !fmap_cons in H. injection H as -> H. f_equal. by apply IH.
Qed.

(** C3.  In a construction that the provider accepts (no empty name), and
    whatever the two lists of ranges, the rule "allow-ssh" has for source
    ranges the list [sshSourceRanges], the same rule is declared whatever
    the general list is, and its source ranges differ from the general list
    whenever the two lists differ; it allows protocol tcp on port 22 and on
    no other port, its direction is INGRESS and it logs with all
    metadata. *)
Theorem C3_ssh_rule_uses_ssh_ranges
    (name region : string) (subnetsConfig : list VPC.SubnetConfig)
    (sourceRanges sshSourceRanges : list string) (s : Engine) :
  named name subnetsConfig →
  ∃ d allow,
    rule "allow-ssh"
      (created (VPC.constructor name region subnetsConfig sourceRanges
                  (Some sshSourceRanges)) s) = [d] ∧
    prop "sourceRanges" d = Some (strs sshSourceRanges) ∧
    (∀ sourceRanges',
       rule "allow-ssh"
         (created (VPC.constructor name region subnetsConfig sourceRanges'
                     (Some sshSourceRanges)) s) = [d]) ∧
    (sshSourceRanges ≠ sourceRanges → prop "sourceRanges" d ≠ Some (strs sourceRanges)) ∧
    prop "allows" d = Some (VArr [allow]) ∧
    get "protocol" allow = Some (VStr "tcp") ∧
    get "ports" allow = Some (VArr [VStr "22"]) ∧
    (∀ p, allows_port allow p = (p =? 22)%N) ∧
    prop "direction" d = Some (VStr "INGRESS") ∧
    prop "logConfig" d = Some (VObj [("metadata", VStr "INCLUDE_ALL_METADATA")]).
Proof.
  intros Hn. exists (ssh_decl (length s) (strs sshSourceRanges)).
  exists (VObj [("protocol", VStr "tcp"); ("ports", VArr [VStr "22"])]). split.
  { by apply (rules_created name region subnetsConfig sourceRanges (Some sshSourceRanges)). }
  split_and!; try done.
  - intros src'.
    by apply (rules_created name region subnetsConfig src' (Some sshSourceRanges)).
  - intros Hne H. apply Hne, strs_inj.
    change (Some (strs sshSourceRanges) = Some (strs sourceRanges)) in H.
    congruence.
  - intros p.
    change (allows_port _ p) with ((22 <=? p) && (p <=? 22) || false)%N.
    destruct (N.leb_spec 22 p), (N.leb_spec p 22), (N.eqb_spec p 22); cbn; lia.
Qed.

Lemma C3_ssh_rule_uses_ssh_ranges_witness :
  named "india-vpc" scenario_subnets ∧
  prop "sourceRanges" <$> rule "allow-ssh" (created scenario [])
  = [Some (strs ["203.0.113.5/32"])].
Proof.
  split; [exact scenario_named|].
  destruct (C3_ssh_rule_uses_ssh_ranges "india-vpc" "us-central1" scenario_subnets
              ["10.0.0.0/8"] ["203.0.113.5/32"] [] scenario_named)
    as (d & allow & Hd & Hsrc & _).
  unfold scenario. by rewrite Hd, fmap_cons, Hsrc.
Defined.

(** C5.  In every construction that the provider accepts (no empty name),
    the rule "allow-internal" allows exactly three entries: tcp on the
    ports 0 to 65535, udp on the ports 0 to 65535 (the 65536 ports there
    are), and icmp with no port restriction; its source ranges are the
    general list, its direction is INGRESS, it logs with all metadata and
    its target tag is "internal".  No declaration of the construction
    carries a [tags] property, the property by which a tag is put on a
    resource. *)
Theorem C5_internal_rule
    (name region : string) (subnetsConfig : list VPC.SubnetConfig)
    (sourceRanges : list string) (sshSourceRanges : option (list string))
    (s : Engine) :
  named name subnetsConfig →
  let ds := created (VPC.constructor name region subnetsConfig sourceRanges sshSourceRanges) s in
  ∃ d tcp udp icmp,
    rule "allow-internal" ds = [d] ∧
    prop "allows" d = Some (VArr [tcp; udp; icmp]) ∧
    get "protocol" tcp = Some (VStr "tcp") ∧
    get "protocol" udp = Some (VStr "udp") ∧
    get "protocol" icmp = Some (VStr "icmp") ∧
    get "ports" tcp = Some (VArr [VStr "0-65535"]) ∧
    get "ports" udp = Some (VArr [VStr "0-65535"]) ∧
    (∀ p, allows_port tcp p = (p <? 65536)%N) ∧
    (∀ p, allows_port udp p = (p <? 65536)%N) ∧
    get "ports" icmp = None ∧
    (∀ p, allows_port icmp p = true) ∧
    prop "sourceRanges" d = Some (strs sourceRanges) ∧
    prop "direction" d = Some (VStr "INGRESS") ∧
    prop "logConfig" d = Some (VObj [("metadata", VStr "INCLUDE_ALL_METADATA")]) ∧
    prop "targetTags" d = Some (VArr [VStr "internal"]) ∧
    Forall (λ d, prop "tags" d = None) ds.
Proof.
  intros Hn. cbv zeta. exists (internal_decl (length s) (strs sourceRanges)).
  exists (VObj [("protocol", VStr "tcp"); ("ports", VArr [VStr "0-65535"])]).
  exists (VObj [("protocol", VStr "udp"); ("ports", VArr [VStr "0-65535"])]).
  exists (VObj [("protocol", VStr "icmp")]). split.
  { by apply (rules_created name region subnetsConfig sourceRanges sshSourceRanges). }
  assert (∀ p, ((0 <=? p) && (p <=? 65535) || false)%N = (p <? 65536)%N) as Hall.
  { intros p.
    destruct (N.leb_spec 0 p), (N.leb_spec p 65535), (N.ltb_spec p 65536); cbn; lia. }
  split_and!; try done; try exact Hall.
  rewrite constructor_created by done. unfold declarations.
  constructor; [done|]. apply Forall_app. split.
  - apply Forall_fmap, Forall_forall. by intros c _.
  - by repeat constructor.
Qed.

Lemma C5_internal_rule_witness :
  named "india-vpc" scenario_subnets ∧
  prop "sourceRanges" <$> rule "allow-internal" (created scenario [])
  = [Some (strs ["10.0.0.0/8"])] ∧
  Forall (λ d, prop "tags" d = None) (created scenario []).
Proof.
  split; [exact scenario_named|].
  destruct (C5_internal_rule "india-vpc" "us-central1" scenario_subnets
              ["10.0.0.0/8"] (Some ["203.0.113.5/32"]) [] scenario_named)
    as (d & tcp & udp & icmp & Hd & Hrest).
  unfold scenario. rewrite Hd, fmap_cons.
  split; [by rewrite (proj1 (proj2 (proj2 (proj2 (proj2 (proj2 (proj2
            (proj2 (proj2 (proj2 (proj2 Hrest)))))))))))|].
  apply Hrest.
Defined.

(** C9, as the code has it.  When the name of the VPC and the names of the
    subnet entries are not empty, the Subnetworks of a construction match
    the entries of the subnet-configuration list one for one and in order:
    each has the name of its entry, the CIDR range of its entry, the region
    given to the constructor and private Google access enabled, and belongs
    to the Network of the construction, which is declared with automatic
    subnet creation disabled. *)
Theorem C9_subnet_attributes
    (name region : string) (subnetsConfig : list VPC.SubnetConfig)
    (sourceRanges : list string) (sshSourceRanges : option (list string))
    (s : Engine) :
  named name subnetsConfig →
  let run := VPC.constructor name region subnetsConfig sourceRanges sshSourceRanges in
  let ds := created run s in
  ∃ this,
    run s = (Normal this, s ++ ds) ∧
    Forall2 (λ c d,
        rname d = VPC.name c ∧
        prop "ipCidrRange" d = Some (VStr (VPC.cidrRange c)) ∧
        prop "region" d = Some (VStr region) ∧
        prop "privateIpGoogleAccess" d = Some (VBool true) ∧
        prop "network" d = Some (VOut (VPC.vpc this) "id"))
      subnetsConfig (of_kind Subnetwork ds) ∧
    ∃ n, (s ++ ds) !! VPC.vpc this = Some n ∧
         of_kind Network ds = [n] ∧
         rname n = name ∧
         prop "autoCreateSubnetworks" n = Some (VBool false).
Proof.
  intros Hn. cbv zeta. rewrite constructor_created, constructor_run by done.
  destruct (of_kind_declarations name region subnetsConfig sourceRanges
              sshSourceRanges (length s)) as (-> & -> & _).
  eexists. split; [reflexivity|]. cbn [VPC.vpc]. split.
  - apply Forall2_fmap_r, Forall_Forall2_diag.
    apply Forall_forall. by intros c _.
  - exists (network_decl name). split_and!; try done.
    unfold declarations. by rewrite list_lookup_middle.
Qed.

Lemma C9_subnet_attributes_witness :
  named "india-vpc" scenario_subnets ∧
  (λ d, (rname d, prop "ipCidrRange" d)) <$> of_kind Subnetwork (created scenario [])
  = [ ("vpc-subnet-1", Some (VStr "10.0.0.0/16"));
      ("vpc-subnet-2", Some (VStr "10.1.0.0/16")) ].
Proof.
  split; [exact scenario_named|].
  destruct (C9_subnet_attributes "india-vpc" "us-central1" scenario_subnets
              ["10.0.0.0/8"] (Some ["203.0.113.5/32"]) [] scenario_named)
    as (this & _ & Hsub & _).
  unfold scenario.
  destruct (of_kind Subnetwork _) as [|d1 [|d2 [|d3 ds]]];
    try (exfalso; apply Forall2_length in Hsub; discriminate Hsub).
  apply Forall2_cons in Hsub as [(Hn1 & Hc1 & _) Hsub].
  apply Forall2_cons in Hsub as [(Hn2 & Hc2 & _) _].
  rewrite !fmap_cons, Hn1, Hc1, Hn2, Hc2. reflexivity.
Defined.

(** C9, as it is worded, fails for an entry with an empty name: the
    construction throws at it, and the entry has no Subnetwork. *)
Lemma C9_empty_named_entry_has_no_subnetwork :
  let subnetsConfig :=
    [VPC.mkSubnetConfig "10.0.0.0/16" "vpc-subnet-1"; VPC.mkSubnetConfig "10.1.0.0/16" ""] in
  let run := VPC.constructor "india-vpc" "us-central1" subnetsConfig ["10.0.0.0/8"] None in
  (run []).1 = Throw (MissingResourceName Subnetwork) ∧
  rname <$> of_kind Subnetwork (created run []) = ["vpc-subnet-1"] ∧
  length (of_kind Subnetwork (created run [])) ≠ length subnetsConfig.
Proof. cbv zeta. by split_and!. Qed.



(** C6.  After a construction that the provider accepts (no empty name),
    [getVPCDetails] returns the [name] and the [id] of the Network and one
    entry per entry of the subnet-configuration list, in the order of that
    list: the [i]th entry holds the [name] and the [id] of the Subnetwork
    declared for the [i]th configuration entry.  It leaves the log as it
    is, and a second call returns the same. *)
Theorem C6_details_follow_input
    (name region : string) (subnetsConfig : list VPC.SubnetConfig)
    (sourceRanges : list string) (sshSourceRanges : option (list string))
    (s : Engine) :
  named name subnetsConfig →
  ∃ this s' entries n,
    VPC.constructor name region subnetsConfig sourceRanges sshSourceRanges s
    = (Normal this, s') ∧
    VPC.getVPCDetails this s'
    = (Normal (VObj [("vpcName", VOut (VPC.vpc this) "name");
                     ("vpcId", VOut (VPC.vpc this) "id");
                     ("subnets", VArr entries)]), s') ∧
    s' !! VPC.vpc this = Some n ∧ kind n = Network ∧ rname n = name ∧
    Forall2 (λ c e, ∃ r d,
        e = VObj [("subnetName", VOut r "name"); ("subnetId", VOut r "id")] ∧
        s !! r = None ∧
        s' !! r = Some d ∧
        kind d = Subnetwork ∧
        rname d = VPC.name c ∧
        prop "ipCidrRange" d = Some (VStr (VPC.cidrRange c)))
      subnetsConfig entries ∧
    (VPC.getVPCDetails this ≫= λ _, VPC.getVPCDetails this) s'
    = VPC.getVPCDetails this s'.
Proof.
  intros Hn. rewrite constructor_run by done. unfold declarations.
  eexists _, _, _, (network_decl name). split; [reflexivity|].
  split; [reflexivity|]. cbn [VPC.vpc VPC.subnets].
  split_and!; try done.
  - by rewrite list_lookup_middle.
  - apply Forall2_same_length_lookup_2.
    { by rewrite length_fmap, length_seq. }
    intros i c e Hc He.
    apply list_lookup_fmap_Some in He as (r & -> & Hr).
    apply lookup_seq in Hr as [-> Hi].
    exists (S (length s) + i), (subnet_decl region (length s) c).
    split_and!; try done.
    + apply lookup_ge_None_2. lia.
    + rewrite lookup_app_r by lia.
      replace (S (length s) + i - length s) with (S i) by lia.
      rewrite lookup_cons.
      rewrite lookup_app_l by (rewrite length_fmap; lia).
      by rewrite list_lookup_fmap, Hc.
Qed.

Lemma C6_details_follow_input_witness :
  named "india-vpc" scenario_subnets ∧
  ∃ this s',
    scenario [] = (Normal this, s') ∧
    VPC.getVPCDetails this s'
    = (Normal (VObj [("vpcName", VOut 0 "name"); ("vpcId", VOut 0 "id");
                     ("subnets", VArr [
                        VObj [("subnetName", VOut 1 "name"); ("subnetId", VOut 1 "id")];
                        VObj [("subnetName", VOut 2 "name"); ("subnetId", VOut 2 "id")]])]),
       s').
Proof.
  split; [exact scenario_named|].
  destruct (C6_details_follow_input "india-vpc" "us-central1" scenario_subnets
              ["10.0.0.0/8"] (Some ["203.0.113.5/32"]) [] scenario_named)
    as (this & s' & entries & n & Hrun & _).
  exists this, s'. split; [exact Hrun|].
  change (scenario []) with
    (Normal (VPC.mk 0 [1; 2]), snd (scenario [])) in Hrun.
  injection Hrun as <- _. reflexivity.
Defined.

(** ** The entry configuration *)

(** The names of the entry configuration are literals, none empty. *)
Lemma india_named (env : Env) : named "india-vpc" (subnetsConfigIndiaVPC env).
Proof. split; [done|]. by repeat constructor. Qed.

(** A deployment ends normally: the exported summary and the five
    declarations. *)
Lemma program_run (env : Env) :
  program env []
  = (Normal (VObj [("vpcName", VOut 0 "name"); ("vpcId", VOut 0 "id");
           ("subnets", VArr [
              VObj [("subnetName", VOut 1 "name"); ("subnetId", VOut 1 "id")];
              VObj [("subnetName", VOut 2 "name"); ("subnetId", VOut 2 "id")]])]),
     [ network_decl "india-vpc";
       subnet_decl (or_default (env !! "GCP_REGION") "us-central1") 0
         (VPC.mkSubnetConfig (or_default (env !! "VPC_CIDR_RANGE_1") "10.0.0.0/16")
            "vpc-subnet-1");
       subnet_decl (or_default (env !! "GCP_REGION") "us-central1") 0
         (VPC.mkSubnetConfig (or_default (env !! "VPC_CIDR_RANGE_2") "10.1.0.0/16")
            "vpc-subnet-2");
       internal_decl 0 (VArr [VStr (or_default (env !! "VPC_SOURCE_RANGE") "10.0.0.0/8")]);
       ssh_decl 0 VUndefined ]).
Proof.
  unfold program, indiaVPC, mbind, M_bind.
  by rewrite constructor_run by apply india_named.
Qed.

Lemma declared_eq (env : Env) : declared env = (program env []).2.
Proof. unfold declared, created. by rewrite drop_0. Qed.

Lemma or_default_setting (env : Env) (x d : string) :
  setting env x d (or_default (env !! x) d).
Proof.
  split.
  - by intros [-> | ->].
  - intros v -> Hv. by destruct v.
Qed.

(** C7, as the code has it.  Each of the four settings is the value of its
    variable when the variable is set to a string that is not empty, and
    its default, "us-central1", "10.0.0.0/16", "10.1.0.0/16" or
    "10.0.0.0/8", when the variable is unset or set to the empty string;
    the settings are the region and the CIDR ranges of the two Subnetworks
    and the one source range of the rule "allow-internal". *)
Theorem C7_settings_and_defaults (env : Env) :
  ∃ region cidr1 cidr2 source,
    setting env "GCP_REGION" "us-central1" region ∧
    setting env "VPC_CIDR_RANGE_1" "10.0.0.0/16" cidr1 ∧
    setting env "VPC_CIDR_RANGE_2" "10.1.0.0/16" cidr2 ∧
    setting env "VPC_SOURCE_RANGE" "10.0.0.0/8" source ∧
    (λ d, (rname d, prop "ipCidrRange" d, prop "region" d))
      <$> of_kind Subnetwork (declared env)
    = [ ("vpc-subnet-1", Some (VStr cidr1), Some (VStr region));
        ("vpc-subnet-2", Some (VStr cidr2), Some (VStr region)) ] ∧
    prop "sourceRanges" <$> rule "allow-internal" (declared env)
    = [ Some (VArr [VStr source]) ].
Proof.
  exists (or_default (env !! "GCP_REGION") "us-central1"),
    (or_default (env !! "VPC_CIDR_RANGE_1") "10.0.0.0/16"),
    (or_default (env !! "VPC_CIDR_RANGE_2") "10.1.0.0/16"),
    (or_default (env !! "VPC_SOURCE_RANGE") "10.0.0.0/8").
  rewrite declared_eq, program_run.
  repeat (split; [apply or_default_setting|]). by split.
Qed.

(** C7, as it is worded, fails where a variable is set to the empty string:
    with [VPC_CIDR_RANGE_1] set to the empty string, the first Subnetwork
    has the default range and not the value of the variable. *)
Lemma C7_empty_value_not_used :
  let env : Env := {[ "VPC_CIDR_RANGE_1" := "" ]} in
  env !! "VPC_CIDR_RANGE_1" = Some "" ∧
  prop "ipCidrRange" <$> of_kind Subnetwork (declared env)
  = [ Some (VStr "10.0.0.0/16"); Some (VStr "10.1.0.0/16") ] ∧
  VStr "10.0.0.0/16" ≠ VStr "".
Proof.
  cbv zeta. by split_and!.
Qed.

(** C4, as the code has it.  The construction of the entry configuration is
    the constructor applied to four arguments, its fifth formal unbound:
    the rule "allow-internal" has for source ranges the list
    [sourceRangesIndiaVPC], the rule "allow-ssh" has [undefined] for source
    ranges, and nothing depends on the variable [VPC_SSH_SOURCE_RANGE]: two
    environments that differ in it alone give the same program. *)
Theorem C4_ssh_ranges_unbound (env : Env) :
  indiaVPC env
  = VPC.constructor "india-vpc" (or_default (env !! "GCP_REGION") "us-central1")
      (subnetsConfigIndiaVPC env) (sourceRangesIndiaVPC env) None ∧
  prop "sourceRanges" <$> rule "allow-internal" (declared env)
  = [ Some (strs (sourceRangesIndiaVPC env)) ] ∧
  prop "sourceRanges" <$> rule "allow-ssh" (declared env) = [ Some VUndefined ] ∧
  (∀ env' : Env,
     (∀ x, x ≠ "VPC_SSH_SOURCE_RANGE" → env' !! x = env !! x) →
     program env' = program env).
Proof.
  split_and!.
  - done.
  - by rewrite declared_eq, program_run.
  - by rewrite declared_eq, program_run.
  - intros env' H.
    unfold program, indiaVPC, subnetsConfigIndiaVPC, sourceRangesIndiaVPC.
    by rewrite !H.
Qed.

(** C4, as it is worded, fails on the SSH rule: in the deployment with no
    variable set, the source ranges of "allow-ssh" are [undefined] and not
    the list [sourceRangesIndiaVPC] that "allow-internal" has. *)
Lemma C4_ssh_rule_not_given_general_ranges :
  prop "sourceRanges" <$> rule "allow-ssh" (declared ∅) = [ Some VUndefined ] ∧
  prop "sourceRanges" <$> rule "allow-internal" (declared ∅)
  = [ Some (strs (sourceRangesIndiaVPC ∅)) ] ∧
  prop "sourceRanges" <$> rule "allow-ssh" (declared ∅)
  ≠ [ Some (strs (sourceRangesIndiaVPC ∅)) ].
Proof.
  rewrite declared_eq, program_run. by split_and!.
Qed.

(** C10.  Whatever two environments are given, the two deployments declare
    resources of the same names, "india-vpc", "vpc-subnet-1",
    "vpc-subnet-2", "allow-internal" and "allow-ssh", and export the same
    summary; their declarations are the same but for the CIDR range and the
    region of the Subnetworks and the source ranges of "allow-internal". *)
Theorem C10_names_independent_of_env (env1 env2 : Env) :
  rname <$> declared env1
  = ["india-vpc"; "vpc-subnet-1"; "vpc-subnet-2"; "allow-internal"; "allow-ssh"] ∧
  rname <$> declared env2 = rname <$> declared env1 ∧
  without_env <$> declared env2 = without_env <$> declared env1 ∧
  indiaVpcDetails env2 = indiaVpcDetails env1.
Proof.
  unfold indiaVpcDetails. rewrite !declared_eq, !program_run. by split_and!.
Qed.

(** * Further properties of the module *)

(** ** The order of the declarations *)

(** The declarations of a construction, after any log, are in dependency
    order when the log is. *)
Lemma declarations_ordered name region cfg
    (sourceRanges : list string) (sshSourceRanges : option (list string))
    (s : Engine) :
  dependency_ordered s →
  dependency_ordered
    (s ++ declarations name region cfg sourceRanges sshSourceRanges (length s)).
Proof.
  intros Hs i d Hd.
  destruct (decide (i < length s)) as [Hi|Hi].
  { rewrite lookup_app_l in Hd by done. by apply Hs. }
  rewrite lookup_app_r in Hd by lia. unfold declarations in Hd.
  destruct (i - length s) as [|j] eqn:Hj.
  { injection Hd as <-. constructor. }
  rewrite lookup_cons in Hd.
  pose proof (refs_after_network region (length s) cfg
                sourceRanges sshSourceRanges) as Hrefs.
  rewrite Forall_lookup in Hrefs. rewrite (Hrefs _ _ Hd).
  repeat constructor. lia.
Qed.

(** X1.  A construction keeps the log in dependency order, whether it ends
    normally or with an exception: when every declaration of the log refers
    to earlier declarations only, the same holds of the log the constructor
    leaves, the Network being declared before the Subnetworks and the rules
    that refer to it. *)
Theorem X1_dependency_order_kept
    (name region : string) (subnetsConfig : list VPC.SubnetConfig)
    (sourceRanges : list string) (sshSourceRanges : option (list string))
    (s : Engine) :
  dependency_ordered s →
  dependency_ordered
    (VPC.constructor name region subnetsConfig sourceRanges sshSourceRanges s).2.
Proof.
  intros Hs.
  destruct (constructor_log name region subnetsConfig sourceRanges sshSourceRanges s)
    as (ds & -> & Hpre).
  intros i d Hd.
  apply (declarations_ordered name region subnetsConfig sourceRanges sshSourceRanges s Hs).
  eapply prefix_lookup_Some; [exact Hd|]. by apply prefix_app.
Qed.

Lemma X1_dependency_order_kept_witness :
  dependency_ordered [] ∧
  dependency_ordered
    (VPC.constructor "india-vpc" "us-central1"
       [VPC.mkSubnetConfig "10.0.0.0/16" "vpc-subnet-1"] ["10.0.0.0/8"] None []).2.
Proof.
  assert (dependency_ordered []) as H0 by (by intros i d).
  split; [exact H0|].
  exact (X1_dependency_order_kept "india-vpc" "us-central1"
           [VPC.mkSubnetConfig "10.0.0.0/16" "vpc-subnet-1"] ["10.0.0.0/8"] None [] H0).
Defined.

(** ** The resources an object holds *)

Lemma declarations_length name region cfg
    (sourceRanges : list string) (sshSourceRanges : option (list string)) network :
  length (declarations name region cfg sourceRanges sshSourceRanges network)
  = 1 + length cfg + 2.
Proof.
  unfold declarations. cbn [length]. rewrite length_app, length_fmap. cbn. lia.
Qed.

(** X2.  When no name is empty, the object a construction returns holds
    resources that are pairwise distinct and were not in the log before:
    [this.vpc] resolves to a Network of the new log, [this.subnets] has one
    resource per entry of the subnet configuration and each resolves to a
    Subnetwork. *)
Theorem X2_object_holds_its_own_resources
    (name region : string) (subnetsConfig : list VPC.SubnetConfig)
    (sourceRanges : list string) (sshSourceRanges : option (list string))
    (s : Engine) :
  named name subnetsConfig →
  ∃ this s',
    VPC.constructor name region subnetsConfig sourceRanges sshSourceRanges s
    = (Normal this, s') ∧
    NoDup (held this) ∧
    Forall (λ r, s !! r = None) (held this) ∧
    length (VPC.subnets this) = length subnetsConfig ∧
    kind <$> s' !! VPC.vpc this = Some Network ∧
    Forall (λ r, kind <$> s' !! r = Some Subnetwork) (VPC.subnets this).
Proof.
  intros Hn. rewrite constructor_run by done. unfold declarations, held.
  eexists _, _. split; [reflexivity|]. cbn [VPC.vpc VPC.subnets]. split_and!.
  - apply NoDup_cons. split; [|apply NoDup_seq].
    rewrite elem_of_seq. lia.
  - apply Forall_forall. intros r Hr. apply lookup_ge_None_2.
    apply elem_of_cons in Hr as [->|Hr%elem_of_seq]; lia.
  - apply length_seq.
  - by rewrite list_lookup_middle.
  - apply Forall_forall. intros r Hr%elem_of_seq.
    rewrite lookup_app_r by lia.
    replace (r - length s) with (S (r - S (length s))) by lia.
    rewrite lookup_cons, lookup_app_l by (rewrite length_fmap; lia).
    rewrite list_lookup_fmap.
    destruct (lookup_lt_is_Some_2 subnetsConfig (r - S (length s))) as [c ->]; [lia|done].
Qed.

Lemma X2_object_holds_its_own_resources_witness :
  named "india-vpc" scenario_subnets ∧
  ∃ this s', scenario [] = (Normal this, s') ∧ NoDup (held this) ∧
             length (VPC.subnets this) = length scenario_subnets.
Proof.
  split; [exact scenario_named|].
  destruct (X2_object_holds_its_own_resources "india-vpc" "us-central1" scenario_subnets
              ["10.0.0.0/8"] (Some ["203.0.113.5/32"]) [] scenario_named)
    as (this & s' & Hrun & Hnd & _ & Hlen & _).
  by exists this, s'.
Defined.

(** ** Two constructions in one program *)

(** X3.  Two constructions, one after the other and neither with an empty
    name, share nothing: no resource the first object holds is held by the
    second, no declaration of the second refers to a resource of the first,
    and the declarations of the first stay in the log as they were. *)
Theorem X3_constructions_share_nothing
    (name1 region1 : string) (subnetsConfig1 : list VPC.SubnetConfig)
    (sourceRanges1 : list string) (sshSourceRanges1 : option (list string))
    (name2 region2 : string) (subnetsConfig2 : list VPC.SubnetConfig)
    (sourceRanges2 : list string) (sshSourceRanges2 : option (list string))
    (s : Engine) :
  named name1 subnetsConfig1 →
  named name2 subnetsConfig2 →
  let run1 := VPC.constructor name1 region1 subnetsConfig1 sourceRanges1 sshSourceRanges1 in
  let run2 := VPC.constructor name2 region2 subnetsConfig2 sourceRanges2 sshSourceRanges2 in
  ∃ this1 s1 this2 s2,
    run1 s = (Normal this1, s1) ∧
    run2 s1 = (Normal this2, s2) ∧
    Forall (λ r, r ∉ held this2) (held this1) ∧
    Forall (λ d, Forall (λ r, r ∉ held this1) (refs (args d))) (created run2 s1) ∧
    take (length s1) s2 = s1.
Proof.
  intros Hn1 Hn2. cbv zeta.
  eexists _, _, _, _. split; [by apply constructor_run|].
  split; [by apply constructor_run|].
  rewrite constructor_created by done.
  rewrite length_app, declarations_length. unfold held. cbn [VPC.vpc VPC.subnets].
  split_and!.
  - apply Forall_forall. intros r Hr1 Hr2.
    apply elem_of_cons in Hr1 as [->|Hr1%elem_of_seq];
      apply elem_of_cons in Hr2 as [Hr2|Hr2%elem_of_seq]; lia.
  - unfold declarations at 1. constructor; [constructor|].
    eapply Forall_impl; [apply refs_after_network|].
    intros d ->. constructor; [|constructor].
    intros Hr1. apply elem_of_cons in Hr1 as [Hr1|Hr1%elem_of_seq]; lia.
  - rewrite <-(declarations_length name1 region1 subnetsConfig1 sourceRanges1
                 sshSourceRanges1 (length s)), <-length_app.
    by rewrite take_app_length.
Qed.

Lemma X3_constructions_share_nothing_witness :
  named "india-vpc" scenario_subnets ∧ named "second-vpc" [] ∧
  ∃ this1 s1 this2 s2,
    scenario [] = (Normal this1, s1) ∧
    VPC.constructor "second-vpc" "us-central1" [] [] None s1 = (Normal this2, s2) ∧
    Forall (λ r, r ∉ held this2) (held this1) ∧
    take (length s1) s2 = s1.
Proof.
  assert (named "second-vpc" []) as Hn2 by (split; [done|constructor]).
  split; [exact scenario_named|]. split; [exact Hn2|].
  destruct (X3_constructions_share_nothing "india-vpc" "us-central1" scenario_subnets
              ["10.0.0.0/8"] (Some ["203.0.113.5/32"])
              "second-vpc" "us-central1" [] [] None [] scenario_named Hn2)
    as (this1 & s1 & this2 & s2 & Hrun1 & Hrun2 & Hheld & _ & Htake).
  by exists this1, s1, this2, s2.
Defined.

(** X4.  The names of the two rules do not depend on the arguments: a
    program that constructs two objects, neither with an empty name,
    declares "allow-internal" twice and "allow-ssh" twice, whatever names
    the two objects are given. *)
Theorem X4_second_construction_repeats_rule_names
    (name1 region1 : string) (subnetsConfig1 : list VPC.SubnetConfig)
    (sourceRanges1 : list string) (sshSourceRanges1 : option (list string))
    (name2 region2 : string) (subnetsConfig2 : list VPC.SubnetConfig)
    (sourceRanges2 : list string) (sshSourceRanges2 : option (list string))
    (s : Engine) :
  named name1 subnetsConfig1 →
  named name2 subnetsConfig2 →
  key <$> of_kind Firewall
    (created
       (_ ← VPC.constructor name1 region1 subnetsConfig1 sourceRanges1 sshSourceRanges1;
        VPC.constructor name2 region2 subnetsConfig2 sourceRanges2 sshSourceRanges2) s)
  = [ (Firewall, "allow-internal"); (Firewall, "allow-ssh");
      (Firewall, "allow-internal"); (Firewall, "allow-ssh") ].
Proof.
  intros Hn1 Hn2. unfold created, mbind, M_bind.
  rewrite (constructor_run name1) by done. cbv beta iota.
  rewrite (constructor_run name2) by done. cbn [snd].
  rewrite <-app_assoc, drop_app_length, of_kind_app.
  destruct (of_kind_declarations name1 region1 subnetsConfig1 sourceRanges1
              sshSourceRanges1 (length s)) as (_ & _ & ->).
  by destruct (of_kind_declarations name2 region2 subnetsConfig2 sourceRanges2
                 sshSourceRanges2
                 (length (s ++ declarations name1 region1 subnetsConfig1 sourceRanges1
                                 sshSourceRanges1 (length s)))) as (_ & _ & ->).
Qed.

Lemma X4_second_construction_repeats_rule_names_witness :
  named "india-vpc" scenario_subnets ∧ named "second-vpc" [] ∧
  key <$> of_kind Firewall
    (created (_ ← scenario; VPC.constructor "second-vpc" "us-central1" [] [] None) [])
  = [ (Firewall, "allow-internal"); (Firewall, "allow-ssh");
      (Firewall, "allow-internal"); (Firewall, "allow-ssh") ].
Proof.
  assert (named "second-vpc" []) as Hn2 by (split; [done|constructor]).
  split; [exact scenario_named|]. split; [exact Hn2|].
  exact (X4_second_construction_repeats_rule_names "india-vpc" "us-central1"
           scenario_subnets ["10.0.0.0/8"] (Some ["203.0.113.5/32"])
           "second-vpc" "us-central1" [] [] None [] scenario_named Hn2).
Defined.

(** ** Names *)

(** Membership in a list of constants that differ from the element. *)
Ltac no_member H :=
  repeat (apply elem_of_cons in H as [H|H]; [discriminate H|]);
  by apply elem_of_nil in H.

(** X5.  The constructor neither renames nor drops entries that share a
    name: when no name is empty, the resources of one construction have
    pairwise distinct class and name exactly when the names of the subnet
    entries are pairwise distinct. *)
Theorem X5_distinct_keys_iff_distinct_subnet_names
    (name region : string) (subnetsConfig : list VPC.SubnetConfig)
    (sourceRanges : list string) (sshSourceRanges : option (list string))
    (s : Engine) :
  named name subnetsConfig →
  NoDup (key <$> created
           (VPC.constructor name region subnetsConfig sourceRanges sshSourceRanges) s)
  ↔ NoDup (VPC.name <$> subnetsConfig).
Proof.
  intros Hn. rewrite constructor_created by done. unfold declarations.
  rewrite fmap_cons, fmap_app, <-list_fmap_compose.
  change (key (network_decl name)) with (Network, name).
  assert (∀ k n, k ≠ Subnetwork →
            (k, n) ∉ (key ∘ subnet_decl region (length s)) <$> subnetsConfig) as Hout.
  { intros k n Hk (c & [= -> _] & _)%list_elem_of_fmap. done. }
  assert (NoDup ((key ∘ subnet_decl region (length s)) <$> subnetsConfig)
          ↔ NoDup (VPC.name <$> subnetsConfig)) as <-.
  { change (key ∘ subnet_decl region (length s))
      with ((λ n : string, (Subnetwork, n)) ∘ VPC.name).
    rewrite (list_fmap_compose VPC.name (λ n : string, (Subnetwork, n))).
    assert (Inj (=) (=) (λ n : string, (Subnetwork, n))) by (by intros x y [= ->]).
    apply (NoDup_fmap _). }
  rewrite NoDup_cons, NoDup_app, elem_of_app. split.
  - by intros (_ & H & _).
  - intros H. split_and!.
    + intros [Hin | Hin]; [by eapply Hout in Hin|]. no_member Hin.
    + done.
    + intros [k n] Hin Hfw. destruct (decide (k = Subnetwork)) as [->|Hk].
      * no_member Hfw.
      * by eapply Hout in Hin.
    + apply NoDup_cons. split; [intros Hin; no_member Hin|apply NoDup_singleton].
Qed.

Lemma X5_distinct_keys_iff_distinct_subnet_names_witness :
  named "india-vpc" scenario_subnets ∧
  NoDup (key <$> created scenario []).
Proof.
  split; [exact scenario_named|].
  apply (X5_distinct_keys_iff_distinct_subnet_names "india-vpc" "us-central1"
           scenario_subnets ["10.0.0.0/8"] (Some ["203.0.113.5/32"]) [] scenario_named).
  apply NoDup_cons. split; [intros H; no_member H|apply NoDup_singleton].
Defined.

(** ** Growing the subnet configuration *)

(** X6.  Entries with names added at the end of the subnet configuration
    only add declarations: when no name is empty, what the constructor
    declares for a list is kept, in order, in what it declares for the
    longer list, and the resources the object holds for the first entries
    are the same. *)
Theorem X6_more_entries_only_add
    (name region : string) (subnetsConfig more : list VPC.SubnetConfig)
    (sourceRanges : list string) (sshSourceRanges : option (list string))
    (s : Engine) :
  named name (subnetsConfig ++ more) →
  let run := VPC.constructor name region subnetsConfig sourceRanges sshSourceRanges in
  let run' := VPC.constructor name region (subnetsConfig ++ more) sourceRanges sshSourceRanges in
  ∃ this this',
    (run s).1 = Normal this ∧
    (run' s).1 = Normal this' ∧
    created run s `sublist_of` created run' s ∧
    length (created run' s) = length (created run s) + length more ∧
    VPC.vpc this' = VPC.vpc this ∧
    VPC.subnets this `prefix_of` VPC.subnets this'.
Proof.
  intros Hn'. assert (named name subnetsConfig) as Hn.
  { destruct Hn' as [Hname Hcfg]. apply Forall_app in Hcfg as [Hcfg _]. by split. }
  cbv zeta. rewrite !constructor_created, !constructor_run by done.
  eexists _, _. split; [reflexivity|]. split; [reflexivity|].
  cbn [VPC.vpc VPC.subnets]. unfold declarations. split_and!.
  - apply sublist_skip. rewrite fmap_app, <-app_assoc.
    apply sublist_app; [done|]. apply sublist_inserts_l. done.
  - cbn [length]. rewrite !length_app, !length_fmap, length_app. cbn. lia.
  - done.
  - rewrite length_app, seq_app. by apply prefix_app_r.
Qed.

Lemma X6_more_entries_only_add_witness :
  named "india-vpc" (scenario_subnets ++ [VPC.mkSubnetConfig "10.2.0.0/16" "vpc-subnet-3"]) ∧
  created scenario []
  `sublist_of`
  created (VPC.constructor "india-vpc" "us-central1"
             (scenario_subnets ++ [VPC.mkSubnetConfig "10.2.0.0/16" "vpc-subnet-3"])
             ["10.0.0.0/8"] (Some ["203.0.113.5/32"])) [].
Proof.
  assert (named "india-vpc"
            (scenario_subnets ++ [VPC.mkSubnetConfig "10.2.0.0/16" "vpc-subnet-3"])) as Hn.
  { split; [done|]. by repeat constructor. }
  split; [exact Hn|].
  destruct (X6_more_entries_only_add "india-vpc" "us-central1" scenario_subnets
              [VPC.mkSubnetConfig "10.2.0.0/16" "vpc-subnet-3"]
              ["10.0.0.0/8"] (Some ["203.0.113.5/32"]) [] Hn)
    as (this & this' & _ & _ & Hsub & _).
  exact Hsub.
Defined.

(** ** The summary *)

(** X7.  For every object, [getVPCDetails] returns a summary and leaves the
    log as it is; the summary refers to the resources the object holds and
    to no other. *)
Theorem X7_details_refer_to_held_resources (this : VPC.t) (s : Engine) :
  ∃ details,
    VPC.getVPCDetails this s = (Normal details, s) ∧
    ∀ r : Resource, r ∈ refs details ↔ r ∈ held this.
Proof.
  eexists. split; [reflexivity|]. intros r.
  destruct this as [network subs]. unfold held. cbn [VPC.vpc VPC.subnets].
  match goal with |- r ∈ refs ?v ↔ _ =>
    change (refs v)
      with (network :: network ::
            flat_map refs ((λ subnet, VObj [("subnetName", VOut subnet "name");
                                           ("subnetId", VOut subnet "id")]) <$> subs) ++ [])
  end.
  rewrite app_nil_r, !elem_of_cons.
  assert (r ∈ flat_map refs ((λ subnet, VObj [("subnetName", VOut subnet "name");
                                              ("subnetId", VOut subnet "id")]) <$> subs)
          ↔ r ∈ subs) as ->; [|tauto].
  induction subs as [|x subs IH]; [done|].
  rewrite fmap_cons. cbn [flat_map].
  change (refs (VObj [("subnetName", VOut x "name"); ("subnetId", VOut x "id")]))
    with [x; x].
  cbn [app]. rewrite !elem_of_cons, IH. tauto.
Qed.

(** X8.  The summary tells objects apart: two objects with the same
    summary hold the same Network and the same Subnetworks in the same
    order. *)
Theorem X8_details_determine_object (this1 this2 : VPC.t) (s1 s2 : Engine) :
  (VPC.getVPCDetails this1 s1).1 = (VPC.getVPCDetails this2 s2).1 →
  this1 = this2.
Proof.
  destruct this1 as [n1 l1], this2 as [n2 l2]. cbn. intros H.
  injection H as -> _ H. f_equal.
  revert l2 H. induction l1 as [|x l1 IH]; intros [|y l2] H; try done.
  rewrite !fmap_cons in H. injection H as -> H. f_equal. by apply IH.
Qed.

Lemma X8_details_determine_object_witness :
  (VPC.getVPCDetails (VPC.mk 0 [1; 2]) []).1
  = (VPC.getVPCDetails (VPC.mk 0 [1; 2]) [network_decl "n"]).1 ∧
  VPC.mk 0 [1; 2] = VPC.mk 0 [1; 2].
Proof.
  split; [reflexivity|].
  apply (X8_details_determine_object (VPC.mk 0 [1; 2]) (VPC.mk 0 [1; 2])
           [] [network_decl "n"]).
  reflexivity.
Defined.

(** ** The settings of the entry configuration *)

Lemma or_default_not_empty (v : option string) (d : string) :
  d ≠ EmptyString → or_default v d ≠ EmptyString.
Proof. intros Hd. by destruct v as [[|c v]|]. Qed.

(** X9.  Whatever the environment, the entry configuration hands no empty
    string to the provider: the region and the CIDR range of both
    Subnetworks and the source range of "allow-internal" are strings that
    are not empty. *)
Theorem X9_no_empty_setting (env : Env) :
  Forall (λ d, ∃ cidr region,
            prop "ipCidrRange" d = Some (VStr cidr) ∧ cidr ≠ EmptyString ∧
            prop "region" d = Some (VStr region) ∧ region ≠ EmptyString)
    (of_kind Subnetwork (declared env)) ∧
  length (of_kind Subnetwork (declared env)) = 2 ∧
  ∃ source,
    prop "sourceRanges" <$> rule "allow-internal" (declared env)
    = [ Some (VArr [VStr source]) ] ∧
    source ≠ EmptyString.
Proof.
  rewrite declared_eq, program_run. cbn [snd]. split_and!.
  - change (of_kind Subnetwork _) with
      [ subnet_decl (or_default (env !! "GCP_REGION") "us-central1") 0
          (VPC.mkSubnetConfig (or_default (env !! "VPC_CIDR_RANGE_1") "10.0.0.0/16")
             "vpc-subnet-1");
        subnet_decl (or_default (env !! "GCP_REGION") "us-central1") 0
          (VPC.mkSubnetConfig (or_default (env !! "VPC_CIDR_RANGE_2") "10.1.0.0/16")
             "vpc-subnet-2") ].
    repeat constructor; eexists _, _;
      (split_and!; [reflexivity|by apply or_default_not_empty
                   |reflexivity|by apply or_default_not_empty]).
  - done.
  - eexists. split; [reflexivity|]. by apply or_default_not_empty.
Qed.

(** X10.  A deployment is a function of the four settings and of nothing
    else in the environment, and it shows each of them: two environments
    with the same settings give the same program, and two environments
    that give the same declarations have the same settings.  A variable set
    to its default, or to the empty string, is as good as unset. *)
Theorem X10_deployment_is_its_settings (env env' : Env) :
  (settings env = settings env' → program env = program env') ∧
  (declared env = declared env' → settings env = settings env').
Proof.
  unfold settings. split.
  - intros [= Hr H1 H2 Hs].
    unfold program, indiaVPC, subnetsConfigIndiaVPC, sourceRangesIndiaVPC.
    by rewrite Hr, H1, H2, Hs.
  - rewrite !declared_eq, !program_run. cbn [snd].
    unfold subnet_decl, internal_decl. cbn [VPC.name VPC.cidrRange].
    intros H. injection H as H1 Hr H2 _ Hs. congruence.
Qed.

(** The settings of three environments: none set, the region set to its
    default, a CIDR range set to the empty string. *)
Example settings_of_defaults :
  settings ∅ = ("us-central1", "10.0.0.0/16", "10.1.0.0/16", "10.0.0.0/8") ∧
  settings {[ "GCP_REGION" := "us-central1" ]} = settings ∅ ∧
  settings {[ "VPC_CIDR_RANGE_2" := "" ]} = settings ∅ ∧
  settings {[ "GCP_REGION" := "asia-south1" ]}
  = ("asia-south1", "10.0.0.0/16", "10.1.0.0/16", "10.0.0.0/8").
Proof. by split_and!. Qed.
